(** * regorm: a generic repository over a gorm store handle

    Shallow embedding of the two Go sources of package [regorm]
    ([src/unnamed/part_000] and [src/repository.go]) and the properties of
    the repository operations.

    The Go code is a thin layer over [*gorm.DB].  gorm is an external
    library: its operations are a parameter of the development (the record
    [gorm.DB] below), and the repository methods are translated line by
    line on top of it.  A small in-memory store, written from the store
    contract of the specification, instantiates the parameter. *)

From stdpp Require Import base option list gmap strings.

Open Scope Z_scope.

(** ** Go values: pointers, panics, and the state monad of a method *)

Module Go.

(** A pointer is [nil] or the address of a variable. *)
Definition loc := positive.
Definition ptr := option loc.
Definition nil : ptr := None.

Inductive cause := nil_dereference.

(** A call returns a value and the state after it, or panics. *)
Inductive outcome (A : Type) :=
| Return (a : A)
| Panic (c : cause).
Arguments Return {A} a.
Arguments Panic {A} c.

Definition exec (St A : Type) : Type := St → outcome (A * St).

Definition panic {St A} (c : cause) : exec St A := λ _, Panic c.

#[global] Instance exec_ret {St} : MRet (exec St) :=
  λ A a s, Return (a, s).
#[global] Instance exec_bind {St} : MBind (exec St) :=
  λ A B f m s,
    match m s with
    | Return (a, s') => f a s'
    | Panic c => Panic c
    end.

(** The same, keeping the state the call had reached when it panicked;
    used where the receiver of a method is part of the state. *)
Inductive result (A : Type) :=
| Done (a : A)
| Panicked (c : cause).
Arguments Done {A} a.
Arguments Panicked {A} c.

Definition stm (St A : Type) : Type := St → result A * St.

#[global] Instance stm_ret {St} : MRet (stm St) :=
  λ A a s, (Done a, s).
#[global] Instance stm_bind {St} : MBind (stm St) :=
  λ A B f m s,
    match m s with
    | (Done a, s') => f a s'
    | (Panicked c, s') => (Panicked c, s')
    end.

End Go.

(** ** The store collaborator: the part of gorm the repository uses *)

Module gorm.

(** Go's [error] values as far as the repository can tell them apart:
    the package variable [gorm.ErrRecordNotFound], compared by identity
    with [!=], and every other error value. *)
Inductive error :=
| ErrRecordNotFound
| Err (msg : string).

#[global] Instance error_eq_dec : EqDecision error.
Proof. solve_decision. Defined.

(** The fields of the returned [*gorm.DB] that the repository reads;
    [Error = None] is Go's [nil]. *)
Record result := Result { Error : option error; RowsAffected : Z }.

Section Store.
Context {T S cond : Type}.

(** Everything a call can read or write: the caller's records ([*T]),
    the caller's slices ([*[]T]) and the contents of the store. *)
Record world := World {
  records : gmap Go.loc T;
  slices : gmap Go.loc (list T);
  table : S
}.

(** The methods of [*gorm.DB] called by the repository.  Each takes
    its destination or value by pointer and may write through it.
    [CreateInBatch] is [Create] applied to a [[]*T]. *)
Record DB := {
  First : Go.ptr → list cond → world → world * result;
  Find : Go.ptr → list cond → world → world * result;
  Create : Go.ptr → world → world * result;
  CreateInBatch : list Go.ptr → world → world * result;
  Save : Go.ptr → world → world * result;
  Delete : Go.ptr → world → world * result
}.

(** A method call on a [*gorm.DB]; a nil handle is dereferenced by the
    callee. *)
Definition call (h : option DB) (f : DB → world → world * result)
  : Go.exec world result :=
  λ w, match h with
       | None => Go.Panic Go.nil_dereference
       | Some db => let '(w', res) := f db w in Go.Return (res, w')
       end.

(** The store's signal that a read matched no row. *)
Definition no_rows (res : result) : Prop :=
  Error res = Some ErrRecordNotFound.

(** What a [*T] and a [*[]T] point to; a nil slice is the empty slice. *)
Definition record_at (w : world) (p : Go.ptr) : option T :=
  l ← p; records w !! l.

Definition slice_at (w : world) (p : Go.ptr) : list T :=
  default [] (l ← p; slices w !! l).


Definition miss_only_from_fetch (db : DB) : Prop :=
  ∀ w,
    (∀ value, ¬ no_rows (Create db value w).2) ∧
    (∀ values, ¬ no_rows (CreateInBatch db values w).2) ∧
    (∀ value, ¬ no_rows (Save db value w).2) ∧
    (∀ value, ¬ no_rows (Delete db value w).2).

End Store.

Arguments world : clear implicits.
Arguments DB : clear implicits.

End gorm.

(** [IBaseModel]: the one capability a record type must have. *)
Class IBaseModel (T : Type) := TableName : T → string.

(** ** src/unnamed/part_000 *)

Module part_000.

Section Repository.
Context {T S cond : Type} `{!IBaseModel T}.

#[local] Abbreviation world := (gorm.world T S).
#[local] Abbreviation DB := (gorm.DB T S cond).
#[local] Abbreviation exec := (Go.exec world).

(** A method call with its arguments, and what a method returns. *)
Inductive call :=
| call_First (model : Go.ptr) (conds : list cond)
| call_FirstOrFail (model : Go.ptr) (conds : list cond)
| call_Find (models : Go.ptr) (conds : list cond)
| call_FindOrFail (models : Go.ptr) (conds : list cond)
| call_Create (model : Go.ptr)
| call_BatchCreate (models : list Go.ptr)
| call_BulkCreate (models : list Go.ptr)
| call_Update (model : Go.ptr)
| call_Delete (model : Go.ptr)
| call_GetDB.

Inductive ret :=
| ret_error (err : option gorm.error)
| ret_record (model : Go.ptr) (err : option gorm.error)
| ret_count (n : Z) (err : option gorm.error)
| ret_db (h : option DB).

Definition method_name (c : call) : string :=
  match c with
  | call_First _ _ => "First"
  | call_FirstOrFail _ _ => "FirstOrFail"
  | call_Find _ _ => "Find"
  | call_FindOrFail _ _ => "FindOrFail"
  | call_Create _ => "Create"
  | call_BatchCreate _ => "BatchCreate"
  | call_BulkCreate _ => "BulkCreate"
  | call_Update _ => "Update"
  | call_Delete _ => "Delete"
  | call_GetDB => "GetDB"
  end.

(** [type IRepository[T IBaseModel] interface]: its method set, and an
    interface value, which is nil or the method table of its dynamic
    value. *)
Definition IRepository_methods : list string :=
  ["First"; "FirstOrFail"; "Find"; "FindOrFail"; "Create";
   "BatchCreate"; "Update"; "Delete"; "GetDB"].

Definition IRepository : Type := option (call → exec ret).

(** [type Repository[T IBaseModel] struct]: the embedded interface and
    the store handle. *)
Record Repository := {
  embedded_IRepository : IRepository;
  Database : option DB
}.

(** The methods declared with receiver [*Repository[T]].  The read
    methods pass [&model], the address of their own parameter; the
    store follows the pointers down to the caller's record, so [model]
    itself is the destination. *)

Definition First (r : Repository) (model : Go.ptr) (conds : list cond)
  : exec (option gorm.error) :=
  res ← gorm.call (Database r) (λ db, gorm.First db model conds);
  if bool_decide (gorm.Error res ≠ None)
     && bool_decide (gorm.Error res ≠ Some gorm.ErrRecordNotFound)
  then mret (gorm.Error res)
  else mret None.

Definition FirstOrFail (r : Repository) (model : Go.ptr)
    (conds : list cond) : exec (option gorm.error) :=
  res ← gorm.call (Database r) (λ db, gorm.First db model conds);
  if bool_decide (gorm.Error res ≠ None)
  then mret (gorm.Error res)
  else mret None.

Definition Find (r : Repository) (models : Go.ptr) (conds : list cond)
  : exec (option gorm.error) :=
  res ← gorm.call (Database r) (λ db, gorm.Find db models conds);
  if bool_decide (gorm.Error res ≠ None)
     && bool_decide (gorm.Error res ≠ Some gorm.ErrRecordNotFound)
  then mret (gorm.Error res)
  else mret None.

Definition FindOrFail (r : Repository) (models : Go.ptr)
    (conds : list cond) : exec (option gorm.error) :=
  res ← gorm.call (Database r) (λ db, gorm.Find db models conds);
  if bool_decide (gorm.Error res ≠ None)
  then mret (gorm.Error res)
  else mret None.

Definition Create (r : Repository) (model : Go.ptr)
  : exec (Go.ptr * option gorm.error) :=
  res ← gorm.call (Database r) (λ db, gorm.Create db model);
  if bool_decide (gorm.Error res ≠ None)
  then mret (Go.nil, gorm.Error res)
  else mret (model, None).

Definition BulkCreate (r : Repository) (models : list Go.ptr)
  : exec (Z * option gorm.error) :=
  res ← gorm.call (Database r) (λ db, gorm.CreateInBatch db models);
  if bool_decide (gorm.Error res ≠ None)
  then mret (gorm.RowsAffected res, gorm.Error res)
  else mret (gorm.RowsAffected res, None).

Definition Update (r : Repository) (model : Go.ptr)
  : exec (option gorm.error) :=
  res ← gorm.call (Database r) (λ db, gorm.Save db model);
  if bool_decide (gorm.Error res ≠ None)
  then mret (gorm.Error res)
  else mret None.

Definition Delete (r : Repository) (model : Go.ptr)
  : exec (Z * option gorm.error) :=
  res ← gorm.call (Database r) (λ db, gorm.Delete db model);
  if bool_decide (gorm.Error res ≠ None)
  then mret (gorm.RowsAffected res, gorm.Error res)
  else mret (gorm.RowsAffected res, None).

Definition GetDB (r : Repository) : exec (option DB) :=
  mret (Database r).

(** No method above assigns to a field of its receiver, which is why the
    receiver is an argument and not part of the state. *)

(** *** Method sets and dispatch

    The methods declared on [*Repository[T]], by name and as a table. *)
Definition Repository_methods : list string :=
  ["First"; "FirstOrFail"; "Find"; "FindOrFail"; "Create";
   "BulkCreate"; "Update"; "Delete"; "GetDB"].

Definition declared (r : Repository) (c : call) : option (exec ret) :=
  match c with
  | call_First model conds =>
      Some (e ← First r model conds; mret (ret_error e))
  | call_FirstOrFail model conds =>
      Some (e ← FirstOrFail r model conds; mret (ret_error e))
  | call_Find models conds =>
      Some (e ← Find r models conds; mret (ret_error e))
  | call_FindOrFail models conds =>
      Some (e ← FindOrFail r models conds; mret (ret_error e))
  | call_Create model =>
      Some (x ← Create r model; mret (ret_record x.1 x.2))
  | call_BatchCreate _ => None
  | call_BulkCreate models =>
      Some (x ← BulkCreate r models; mret (ret_count x.1 x.2))
  | call_Update model =>
      Some (e ← Update r model; mret (ret_error e))
  | call_Delete model =>
      Some (x ← Delete r model; mret (ret_count x.1 x.2))
  | call_GetDB =>
      Some (h ← GetDB r; mret (ret_db h))
  end.

(** A call through an interface value: only the methods of the interface
    can be named, and a nil interface value panics. *)
Definition invoke (i : IRepository) (c : call) : option (exec ret) :=
  if bool_decide (method_name c ∈ IRepository_methods)
  then Some (match i with
             | None => Go.panic Go.nil_dereference
             | Some tab => tab c
             end)
  else None.

(** Selector resolution on a [*Repository[T]]: a declared method (depth
    0) wins; otherwise the method is promoted from the embedded
    [IRepository[T]] field (depth 1) and the call goes to that field. *)
Definition select (r : Repository) (c : call) : option (exec ret) :=
  match declared r c with
  | Some m => Some m
  | None => invoke (embedded_IRepository r) c
  end.

(** The interface value holding a [*Repository[T]]. *)
Definition as_IRepository (r : Repository) : IRepository :=
  Some (λ c, default (Go.panic Go.nil_dereference) (select r c)).

(** [&Repository[T]{Database: database}], and [InitRepository], which
    returns it as an [IRepository[T]]. *)
Definition Repository_literal (database : option DB) : Repository :=
  {| embedded_IRepository := None; Database := database |}.

Definition InitRepository (database : option DB) : IRepository :=
  as_IRepository (Repository_literal database).

(** The store call behind each declared method. *)
Definition store_call (db : DB) (c : call)
  : option (world → world * gorm.result) :=
  match c with
  | call_First model conds | call_FirstOrFail model conds =>
      Some (gorm.First db model conds)
  | call_Find models conds | call_FindOrFail models conds =>
      Some (gorm.Find db models conds)
  | call_Create model => Some (gorm.Create db model)
  | call_BatchCreate _ => None
  | call_BulkCreate models => Some (gorm.CreateInBatch db models)
  | call_Update model => Some (gorm.Save db model)
  | call_Delete model => Some (gorm.Delete db model)
  | call_GetDB => None
  end.

(** The error component of a returned value. *)
Definition ret_err (v : ret) : option gorm.error :=
  match v with
  | ret_error e | ret_record _ e | ret_count _ e => e
  | ret_db _ => None
  end.

(** The methods whose body tests for [gorm.ErrRecordNotFound]. *)
Definition suppresses_not_found (c : call) : bool :=
  match c with
  | call_First _ _ | call_Find _ _ => true
  | _ => false
  end.

(** The [*OrFail] methods. *)
Definition or_fail (c : call) : bool :=
  match c with
  | call_FirstOrFail _ _ | call_FindOrFail _ _ => true
  | _ => false
  end.

(** A sequence of calls through an interface value, stopping at the
    first panic.  A call that names no method of the interface does not
    compile and is skipped. *)
Fixpoint invoke_all (i : IRepository) (cs : list call)
  : exec (list ret) :=
  match cs with
  | [] => mret []
  | c :: cs' =>
      match invoke i c with
      | Some m => v ← m; vs ← invoke_all i cs'; mret (v :: vs)
      | None => invoke_all i cs'
      end
  end.

End Repository.

End part_000.

(** ** src/unnamed/part_000, with the receiver in the state

    Every method has the receiver [r *Repository[T]].  Here the struct
    [r] points to is a variable of the state, next to the memory and the
    store: a method body reads [r.Database] and [r.IRepository] from the
    state, and a body that assigned to a field would change the state. *)

Module receiver.

Section Repository.
Context {T S cond : Type} `{!IBaseModel T}.

#[local] Abbreviation world := (gorm.world T S).
#[local] Abbreviation DB := (gorm.DB T S cond).
#[local] Abbreviation Repository := (@part_000.Repository T S cond).
#[local] Abbreviation call := (@part_000.call cond).
#[local] Abbreviation ret := (@part_000.ret T S cond).

Record state := State {
  this : Repository;
  mem : world
}.

#[local] Abbreviation stm := (Go.stm state).

(** The field reads [r.Database] and [r.IRepository]. *)
Definition r_Database : stm (option DB) :=
  λ s, (Go.Done (part_000.Database (this s)), s).

Definition r_IRepository : stm (@part_000.IRepository T S cond) :=
  λ s, (Go.Done (part_000.embedded_IRepository (this s)), s).

(** A method call on a [*gorm.DB]: the store works on the memory and
    its own contents; it is not given the receiver. *)
Definition db_call (h : option DB) (f : DB → world → world * gorm.result)
  : stm gorm.result :=
  λ s, match h with
       | None => (Go.Panicked Go.nil_dereference, s)
       | Some db =>
           let '(w', res) := f db (mem s) in (Go.Done res, State (this s) w')
       end.

(** A method call on an interface value. *)
Definition iface_call (i : @part_000.IRepository T S cond) (c : call)
  : stm ret :=
  λ s, match i with
       | None => (Go.Panicked Go.nil_dereference, s)
       | Some tab =>
           match tab c (mem s) with
           | Go.Return (v, w') => (Go.Done v, State (this s) w')
           | Go.Panic k => (Go.Panicked k, s)
           end
       end.

Definition First (model : Go.ptr) (conds : list cond)
  : stm (option gorm.error) :=
  h ← r_Database;
  res ← db_call h (λ db, gorm.First db model conds);
  if bool_decide (gorm.Error res ≠ None)
     && bool_decide (gorm.Error res ≠ Some gorm.ErrRecordNotFound)
  then mret (gorm.Error res)
  else mret None.

Definition FirstOrFail (model : Go.ptr) (conds : list cond)
  : stm (option gorm.error) :=
  h ← r_Database;
  res ← db_call h (λ db, gorm.First db model conds);
  if bool_decide (gorm.Error res ≠ None)
  then mret (gorm.Error res)
  else mret None.

Definition Find (models : Go.ptr) (conds : list cond)
  : stm (option gorm.error) :=
  h ← r_Database;
  res ← db_call h (λ db, gorm.Find db models conds);
  if bool_decide (gorm.Error res ≠ None)
     && bool_decide (gorm.Error res ≠ Some gorm.ErrRecordNotFound)
  then mret (gorm.Error res)
  else mret None.

Definition FindOrFail (models : Go.ptr) (conds : list cond)
  : stm (option gorm.error) :=
  h ← r_Database;
  res ← db_call h (λ db, gorm.Find db models conds);
  if bool_decide (gorm.Error res ≠ None)
  then mret (gorm.Error res)
  else mret None.

Definition Create (model : Go.ptr) : stm (Go.ptr * option gorm.error) :=
  h ← r_Database;
  res ← db_call h (λ db, gorm.Create db model);
  if bool_decide (gorm.Error res ≠ None)
  then mret (Go.nil, gorm.Error res)
  else mret (model, None).

Definition BulkCreate (models : list Go.ptr)
  : stm (Z * option gorm.error) :=
  h ← r_Database;
  res ← db_call h (λ db, gorm.CreateInBatch db models);
  if bool_decide (gorm.Error res ≠ None)
  then mret (gorm.RowsAffected res, gorm.Error res)
  else mret (gorm.RowsAffected res, None).

Definition Update (model : Go.ptr) : stm (option gorm.error) :=
  h ← r_Database;
  res ← db_call h (λ db, gorm.Save db model);
  if bool_decide (gorm.Error res ≠ None)
  then mret (gorm.Error res)
  else mret None.

Definition Delete (model : Go.ptr) : stm (Z * option gorm.error) :=
  h ← r_Database;
  res ← db_call h (λ db, gorm.Delete db model);
  if bool_decide (gorm.Error res ≠ None)
  then mret (gorm.RowsAffected res, gorm.Error res)
  else mret (gorm.RowsAffected res, None).

Definition GetDB : stm (option DB) :=
  h ← r_Database; mret h.

(** A call on the [*Repository[T]]: one of the nine declared methods,
    or [BatchCreate], which is [r.IRepository.BatchCreate]. *)
Definition method (c : call) : stm ret :=
  match c with
  | part_000.call_First model conds =>
      e ← First model conds; mret (part_000.ret_error e)
  | part_000.call_FirstOrFail model conds =>
      e ← FirstOrFail model conds; mret (part_000.ret_error e)
  | part_000.call_Find models conds =>
      e ← Find models conds; mret (part_000.ret_error e)
  | part_000.call_FindOrFail models conds =>
      e ← FindOrFail models conds; mret (part_000.ret_error e)
  | part_000.call_Create model =>
      x ← Create model; mret (part_000.ret_record x.1 x.2)
  | part_000.call_BatchCreate models =>
      i ← r_IRepository; iface_call i (part_000.call_BatchCreate models)
  | part_000.call_BulkCreate models =>
      x ← BulkCreate models; mret (part_000.ret_count x.1 x.2)
  | part_000.call_Update model =>
      e ← Update model; mret (part_000.ret_error e)
  | part_000.call_Delete model =>
      x ← Delete model; mret (part_000.ret_count x.1 x.2)
  | part_000.call_GetDB =>
      h ← GetDB; mret (part_000.ret_db h)
  end.

(** A sequence of calls on one repository: what each call gave and the
    state after it.  The sequence ends at the first panic. *)
Fixpoint run (cs : list call) (s : state) : list (Go.result ret * state) :=
  match cs with
  | [] => []
  | c :: cs' =>
      let x := method c s in
      x :: match x.1 with
           | Go.Done _ => run cs' x.2
           | Go.Panicked _ => []
           end
  end.

End Repository.

End receiver.

(** ** src/repository.go

    The other source of the package.  Its read methods take one
    condition value, and it has no [*OrFail] methods; the write methods
    and [GetDB] read as in [part_000]. *)

Module repository_go.

Section Repository.
Context {T S cond : Type} `{!IBaseModel T}.

#[local] Abbreviation world := (gorm.world T S).
#[local] Abbreviation DB := (gorm.DB T S cond).
#[local] Abbreviation exec := (Go.exec world).

(** The embedded interface of this file names six of the calls of
    [part_000.call]; its values are method tables over those. *)
Record Repository := {
  embedded_IRepository : @part_000.IRepository T S cond;
  database : option DB
}.

Definition First (r : Repository) (model : Go.ptr) (conds : cond)
  : exec (option gorm.error) :=
  res ← gorm.call (database r) (λ db, gorm.First db model [conds]);
  if bool_decide (gorm.Error res ≠ None)
  then mret (gorm.Error res)
  else mret None.

Definition Find (r : Repository) (models : Go.ptr) (conds : cond)
  : exec (option gorm.error) :=
  res ← gorm.call (database r) (λ db, gorm.Find db models [conds]);
  if bool_decide (gorm.Error res ≠ None)
  then mret (gorm.Error res)
  else mret None.

(** The write methods and [GetDB], as this file has them. *)

Definition Create (r : Repository) (model : Go.ptr)
  : exec (Go.ptr * option gorm.error) :=
  res ← gorm.call (database r) (λ db, gorm.Create db model);
  if bool_decide (gorm.Error res ≠ None)
  then mret (Go.nil, gorm.Error res)
  else mret (model, None).

Definition BulkCreate (r : Repository) (models : list Go.ptr)
  : exec (Z * option gorm.error) :=
  res ← gorm.call (database r) (λ db, gorm.CreateInBatch db models);
  if bool_decide (gorm.Error res ≠ None)
  then mret (gorm.RowsAffected res, gorm.Error res)
  else mret (gorm.RowsAffected res, None).

Definition Update (r : Repository) (model : Go.ptr)
  : exec (option gorm.error) :=
  res ← gorm.call (database r) (λ db, gorm.Save db model);
  if bool_decide (gorm.Error res ≠ None)
  then mret (gorm.Error res)
  else mret None.

Definition Delete (r : Repository) (model : Go.ptr)
  : exec (Z * option gorm.error) :=
  res ← gorm.call (database r) (λ db, gorm.Delete db model);
  if bool_decide (gorm.Error res ≠ None)
  then mret (gorm.RowsAffected res, gorm.Error res)
  else mret (gorm.RowsAffected res, None).

Definition GetDB (r : Repository) : exec (option DB) :=
  mret (database r).

(** *** Method sets and dispatch

    The interface of this file names six methods; [*Repository[T]]
    declares seven.  A call of [First] or [Find] carries exactly one
    condition value. *)
Definition IRepository_methods : list string :=
  ["First"; "Create"; "BatchCreate"; "Update"; "Delete"; "GetDB"].

Definition Repository_methods : list string :=
  ["First"; "Find"; "Create"; "BulkCreate"; "Update"; "Delete"; "GetDB"].

Definition declared (r : Repository) (c : part_000.call)
  : option (exec part_000.ret) :=
  match c with
  | part_000.call_First model [conds] =>
      Some (e ← First r model conds; mret (part_000.ret_error e))
  | part_000.call_Find models [conds] =>
      Some (e ← Find r models conds; mret (part_000.ret_error e))
  | part_000.call_Create model =>
      Some (x ← Create r model; mret (part_000.ret_record x.1 x.2))
  | part_000.call_BulkCreate models =>
      Some (x ← BulkCreate r models; mret (part_000.ret_count x.1 x.2))
  | part_000.call_Update model =>
      Some (e ← Update r model; mret (part_000.ret_error e))
  | part_000.call_Delete model =>
      Some (x ← Delete r model; mret (part_000.ret_count x.1 x.2))
  | part_000.call_GetDB =>
      Some (h ← GetDB r; mret (part_000.ret_db h))
  | _ => None
  end.

Definition invoke (i : @part_000.IRepository T S cond) (c : part_000.call)
  : option (exec part_000.ret) :=
  if bool_decide (part_000.method_name c ∈ IRepository_methods)
  then Some (match i with
             | None => Go.panic Go.nil_dereference
             | Some tab => tab c
             end)
  else None.

Definition select (r : Repository) (c : part_000.call)
  : option (exec part_000.ret) :=
  match declared r c with
  | Some m => Some m
  | None => invoke (embedded_IRepository r) c
  end.

Definition as_IRepository (r : Repository) : @part_000.IRepository T S cond :=
  Some (λ c, default (Go.panic Go.nil_dereference) (select r c)).

Definition Repository_literal (db : option DB) : Repository :=
  {| embedded_IRepository := None; database := db |}.

Definition InitRepository (db : option DB) : @part_000.IRepository T S cond :=
  as_IRepository (Repository_literal db).

End Repository.

End repository_go.

(** ** A reference store

    The store collaborator (gorm and the database behind it) is not part
    of the repository's sources.  This store follows the store contract
    of the specification: single-row fetch ordered by primary key,
    multi-row fetch, insert (single and batch), upsert by identity,
    delete or soft delete by identity, and one distinguishable no-rows error
    value. *)

Module memstore.

(** A record type with an identity, and a deletion timestamp that only
    a soft-deleting store uses. *)
Record Model := {
  ID : Z;
  Name : string;
  DeletedAt : option Z
}.

#[global] Instance Model_IBaseModel : IBaseModel Model := λ _, "models".

(** A condition is a filter the store evaluates on a row. *)
Definition cond : Type := Model → bool.

(** The stored rows, the next identity to assign, and the clock. *)
Record Table := {
  rows : list Model;
  next_id : Z;
  now : Z
}.

#[local] Abbreviation world := (gorm.world Model Table).

Definition with_ID (m : Model) (i : Z) : Model :=
  {| ID := i; Name := Name m; DeletedAt := DeletedAt m |}.

Definition with_DeletedAt (m : Model) (t : option Z) : Model :=
  {| ID := ID m; Name := Name m; DeletedAt := t |}.

Definition set_records (w : world) (h : gmap Go.loc Model) : world :=
  gorm.World h (gorm.slices w) (gorm.table w).

Definition set_slices (w : world) (s : gmap Go.loc (list Model)) : world :=
  gorm.World (gorm.records w) s (gorm.table w).

Definition set_table (w : world) (t : Table) : world :=
  gorm.World (gorm.records w) (gorm.slices w) t.

Definition ok (n : Z) : gorm.result := gorm.Result None n.
Definition failed (e : gorm.error) (n : Z) : gorm.result :=
  gorm.Result (Some e) n.

Definition ErrInvalidValue : gorm.error := gorm.Err "invalid value".
Definition ErrDuplicatedKey : gorm.error := gorm.Err "duplicated key".

(** Rows a read can see: not soft-deleted, and accepted by every
    condition. *)
Definition visible (m : Model) : bool :=
  bool_decide (DeletedAt m = None).

Definition matching (conds : list cond) (t : Table) : list Model :=
  filter (λ m, visible m && forallb (λ c, c m) conds) (rows t).

(** The row with the lowest primary key. *)
Fixpoint lowest (ms : list Model) : option Model :=
  match ms with
  | [] => None
  | m :: ms' =>
      match lowest ms' with
      | Some m' => if bool_decide (ID m' < ID m) then Some m' else Some m
      | None => Some m
      end
  end.

Definition has_ID (i : Z) (t : Table) : bool :=
  bool_decide (i ∈ ID <$> rows t).

(** A record has a matching identity when its identity is set and a
    row carries it. *)
Definition stored (m : Model) (t : Table) : bool :=
  bool_decide (ID m ≠ 0) && has_ID (ID m) t.

(** Modelled from the spec: the store's single-row fetch ordered by
    primary key (gorm's [First], not in the sources); no match is reported
    by the no-rows value and writes nothing. *)
Definition First (dest : Go.ptr) (conds : list cond) (w : world)
  : world * gorm.result :=
  match lowest (matching conds (gorm.table w)) with
  | None => (w, failed gorm.ErrRecordNotFound 0)
  | Some m =>
      match dest with
      | Some l => (set_records w (<[l := m]> (gorm.records w)), ok 1)
      | None => (w, ok 1)
      end
  end.

(** Modelled from the spec: the store's multi-row fetch (gorm's [Find],
    not in the sources): the target is filled with all matches; an empty
    match set gives an empty result, a count of zero and no error. *)
Definition Find (dest : Go.ptr) (conds : list cond) (w : world)
  : world * gorm.result :=
  let ms := matching conds (gorm.table w) in
  match dest with
  | Some l =>
      (set_slices w (<[l := ms]> (gorm.slices w)), ok (Z.of_nat (length ms)))
  | None => (w, ok (Z.of_nat (length ms)))
  end.

(** Modelled from the spec: the store's insert (not in the sources).  A
    record without identity gets the next one, written back into the
    caller's record; a taken identity is a constraint violation. *)
Definition insert_row (l : Go.loc) (m : Model) (w : world)
  : world * gorm.result :=
  let t := gorm.table w in
  if bool_decide (ID m = 0) then
    let m' := with_ID m (next_id t) in
    (gorm.World (<[l := m']> (gorm.records w)) (gorm.slices w)
       {| rows := rows t ++ [m']; next_id := next_id t + 1; now := now t |},
     ok 1)
  else if has_ID (ID m) t then (w, failed ErrDuplicatedKey 0)
  else
    (set_table w
       {| rows := rows t ++ [m];
          next_id := Z.max (next_id t) (ID m + 1);
          now := now t |},
     ok 1).

(** Modelled from the spec: gorm's [Create] on one record (not in the
    sources). *)
Definition Create (value : Go.ptr) (w : world) : world * gorm.result :=
  match value with
  | Some l =>
      match gorm.records w !! l with
      | Some m => insert_row l m w
      | None => (w, failed ErrInvalidValue 0)
      end
  | None => (w, failed ErrInvalidValue 0)
  end.

(** Modelled from the spec: the store's batch insert (gorm's [Create] on
    a slice, not in the sources): one row after the other; the first
    failure stops the batch and the count is what was inserted before
    it. *)
Fixpoint create_from (n : Z) (values : list Go.ptr) (w : world)
  : world * gorm.result :=
  match values with
  | [] => (w, ok n)
  | v :: vs =>
      let '(w', res) := Create v w in
      match gorm.Error res with
      | Some e => (w', failed e n)
      | None => create_from (n + 1) vs w'
      end
  end.

Definition CreateInBatch (values : list Go.ptr) (w : world)
  : world * gorm.result :=
  create_from 0 values w.

(** The row of [m]'s identity replaced by [m]. *)
Definition replace_row (m : Model) (ms : list Model) : list Model :=
  (λ r, if bool_decide (ID r = ID m) then m else r) <$> ms.

(** Modelled from the spec: the store's upsert by identity (gorm's
    [Save], not in the sources): a record whose identity is stored
    replaces that row, any other record is inserted. *)
Definition Save (value : Go.ptr) (w : world) : world * gorm.result :=
  match value with
  | Some l =>
      match gorm.records w !! l with
      | Some m =>
          let t := gorm.table w in
          if stored m t then
            (set_table w
               {| rows := replace_row m (rows t);
                  next_id := next_id t; now := now t |},
             ok 1)
          else insert_row l m w
      | None => (w, failed ErrInvalidValue 0)
      end
  | None => (w, failed ErrInvalidValue 0)
  end.

Definition hit (i : Z) (r : Model) : bool :=
  bool_decide (ID r = i) && visible r.

Definition stamp (i : Z) (time : Z) (r : Model) : Model :=
  if hit i r then with_DeletedAt r (Some time) else r.

(** Modelled from the spec: the store's delete by identity (gorm's
    [Delete], not in the sources): with a deletion timestamp in the
    record type the visible rows of that identity are stamped with the
    current time, without one they are removed. *)
Definition Delete (soft : bool) (value : Go.ptr) (w : world)
  : world * gorm.result :=
  match value with
  | Some l =>
      match gorm.records w !! l with
      | Some m =>
          let t := gorm.table w in
          let n := Z.of_nat (length (filter (λ r, hit (ID m) r) (rows t))) in
          let rows' :=
            if soft
            then stamp (ID m) (now t) <$> rows t
            else filter (λ r, negb (hit (ID m) r)) (rows t) in
          (set_table w
             {| rows := rows'; next_id := next_id t; now := now t |},
           ok n)
      | None => (w, failed ErrInvalidValue 0)
      end
  | None => (w, failed ErrInvalidValue 0)
  end.

(** Modelled from the spec: the store handle (a [*gorm.DB], not in the
    sources); [soft] says whether the record type carries the deletion
    timestamp. *)
Definition db (soft : bool) : gorm.DB Model Table cond :=
  {| gorm.First := First;
     gorm.Find := Find;
     gorm.Create := Create;
     gorm.CreateInBatch := CreateInBatch;
     gorm.Save := Save;
     gorm.Delete := Delete soft |}.

End memstore.

(** ** Sample values *)

Module sample.

Definition alice : memstore.Model :=
  {| memstore.ID := 0; memstore.Name := "a"; memstore.DeletedAt := None |}.

Definition p1 : Go.ptr := Some 1%positive.
Definition p2 : Go.ptr := Some 2%positive.
Definition s1 : Go.ptr := Some 3%positive.

(** Two records of the caller, both without identity, an empty slice
    variable, and an empty table. *)
Definition w0 : gorm.world memstore.Model memstore.Table :=
  gorm.World
    (<[1%positive := alice]> (<[2%positive := alice]> ∅))
    (<[3%positive := []]> ∅)
    {| memstore.rows := []; memstore.next_id := 1; memstore.now := 100 |}.

(** The first record once it has been created, and the state then. *)
Definition alice1 : memstore.Model := memstore.with_ID alice 1.

Definition w1 : gorm.world memstore.Model memstore.Table :=
  (memstore.Create p1 w0).1.

Definition by_ID (i : Z) : memstore.cond :=
  λ m, bool_decide (memstore.ID m = i).

Definition ret : Type :=
  @part_000.ret memstore.Model memstore.Table memstore.cond.

Definition repo (soft : bool) : @part_000.Repository _ _ memstore.cond :=
  part_000.Repository_literal (Some (memstore.db soft)).

Definition repo_go : @repository_go.Repository _ _ memstore.cond :=
  {| repository_go.embedded_IRepository := None;
     repository_go.database := Some (memstore.db false) |}.

End sample.

(** * Properties *)

(** ** Running a method: the shape every method body has *)

Section part_000_properties.
Context {T S cond : Type} `{!IBaseModel T}.

#[local] Abbreviation world := (gorm.world T S).
#[local] Abbreviation DB := (gorm.DB T S cond).
#[local] Abbreviation Repository := (@part_000.Repository T S cond).

Implicit Types (r : Repository) (db : DB) (w : world) (res : gorm.result).

Lemma call_handle db (f : DB → world → world * gorm.result) w :
  gorm.call (Some db) f w = Go.Return ((f db w).2, (f db w).1).
Proof. unfold gorm.call. by destruct (f db w). Qed.

Lemma call_nil_handle (f : DB → world → world * gorm.result) w :
  gorm.call None f w = Go.Panic Go.nil_dereference.
Proof. done. Qed.

Lemma bind_call {A} db (f : DB → world → world * gorm.result)
    (k : gorm.result → Go.exec world A) w :
  (gorm.call (Some db) f ≫= k) w = k (f db w).2 (f db w).1.
Proof. unfold mbind, Go.exec_bind. by rewrite call_handle. Qed.

Lemma First_run r db model conds w :
  part_000.Database r = Some db →
  part_000.First r model conds w =
    let o := gorm.First db model conds w in
    Go.Return (if bool_decide (gorm.Error o.2 = Some gorm.ErrRecordNotFound)
               then None else gorm.Error o.2, o.1).
Proof.
  intros Hr. unfold part_000.First. rewrite Hr, bind_call. simpl.
  destruct (gorm.Error _) as [[|msg]|]; by repeat case_bool_decide.
Qed.

Lemma FirstOrFail_run r db model conds w :
  part_000.Database r = Some db →
  part_000.FirstOrFail r model conds w =
    let o := gorm.First db model conds w in Go.Return (gorm.Error o.2, o.1).
Proof.
  intros Hr. unfold part_000.FirstOrFail. rewrite Hr, bind_call. simpl.
  by destruct (gorm.Error _); case_bool_decide.
Qed.

Lemma Find_run r db models conds w :
  part_000.Database r = Some db →
  part_000.Find r models conds w =
    let o := gorm.Find db models conds w in
    Go.Return (if bool_decide (gorm.Error o.2 = Some gorm.ErrRecordNotFound)
               then None else gorm.Error o.2, o.1).
Proof.
  intros Hr. unfold part_000.Find. rewrite Hr, bind_call. simpl.
  destruct (gorm.Error _) as [[|msg]|]; by repeat case_bool_decide.
Qed.

Lemma FindOrFail_run r db models conds w :
  part_000.Database r = Some db →
  part_000.FindOrFail r models conds w =
    let o := gorm.Find db models conds w in Go.Return (gorm.Error o.2, o.1).
Proof.
  intros Hr. unfold part_000.FindOrFail. rewrite Hr, bind_call. simpl.
  by destruct (gorm.Error _); case_bool_decide.
Qed.

Lemma Create_run r db model w :
  part_000.Database r = Some db →
  part_000.Create r model w =
    let o := gorm.Create db model w in
    Go.Return (if bool_decide (gorm.Error o.2 ≠ None)
               then (Go.nil, gorm.Error o.2) else (model, None), o.1).
Proof.
  intros Hr. unfold part_000.Create. rewrite Hr, bind_call. simpl.
  by destruct (gorm.Error _); case_bool_decide.
Qed.

Lemma BulkCreate_run r db models w :
  part_000.Database r = Some db →
  part_000.BulkCreate r models w =
    let o := gorm.CreateInBatch db models w in
    Go.Return ((gorm.RowsAffected o.2, gorm.Error o.2), o.1).
Proof.
  intros Hr. unfold part_000.BulkCreate. rewrite Hr, bind_call. simpl.
  by destruct (gorm.Error _); case_bool_decide.
Qed.

Lemma Update_run r db model w :
  part_000.Database r = Some db →
  part_000.Update r model w =
    let o := gorm.Save db model w in Go.Return (gorm.Error o.2, o.1).
Proof.
  intros Hr. unfold part_000.Update. rewrite Hr, bind_call. simpl.
  by destruct (gorm.Error _); case_bool_decide.
Qed.

Lemma Delete_run r db model w :
  part_000.Database r = Some db →
  part_000.Delete r model w =
    let o := gorm.Delete db model w in
    Go.Return ((gorm.RowsAffected o.2, gorm.Error o.2), o.1).
Proof.
  intros Hr. unfold part_000.Delete. rewrite Hr, bind_call. simpl.
  by destruct (gorm.Error _); case_bool_decide.
Qed.

(** A bind that returns did so through a first step that returned. *)
Lemma bind_Return_inv {A B} (m : Go.exec world A) (k : A → Go.exec world B)
    w b w' :
  (m ≫= k) w = Go.Return (b, w') →
  ∃ a w1, m w = Go.Return (a, w1) ∧ k a w1 = Go.Return (b, w').
Proof.
  unfold mbind, Go.exec_bind. destruct (m w) as [[a w1]|c]; [eauto|done].
Qed.

(** Every declared method returns the error the store gave, except that
    [First] and [Find] turn the no-rows value into nil; the state after
    the call is the state after the one store call. *)
Lemma declared_run r db c m f w :
  part_000.Database r = Some db →
  part_000.declared r c = Some m →
  part_000.store_call db c = Some f →
  ∃ v, m w = Go.Return (v, (f w).1) ∧
       part_000.ret_err v =
         if part_000.suppresses_not_found c
            && bool_decide (gorm.Error (f w).2 = Some gorm.ErrRecordNotFound)
         then None else gorm.Error (f w).2.
Proof.
  intros Hr Hm Hf.
  destruct c; simplify_eq/=; unfold mbind at 1, Go.exec_bind;
    rewrite ?(First_run r db), ?(FirstOrFail_run r db), ?(Find_run r db),
      ?(FindOrFail_run r db), ?(Create_run r db), ?(BulkCreate_run r db),
      ?(Update_run r db), ?(Delete_run r db) by done;
    simpl; (eexists; split; [reflexivity|]); simpl; try done.
  by destruct (gorm.Error _); case_bool_decide.
Qed.

(** ** Not found: suppressed by [First] and [Find], surfaced by the
    [*OrFail] methods *)

(** C1 (amended).  When the store's single-row fetch reports that no row
    matched and has left the target record as it was, [First] of
    [src/unnamed/part_000] returns a nil error, the state after the call is
    the state the store left, and the target still holds what it held
    before the call: the no-rows error is suppressed.  [First] of
    [src/repository.go] does not suppress it: it returns the store's
    no-rows error to the caller. *)
Theorem First_not_found r (r0 : @repository_go.Repository T S cond)
    db model conds w w' res :
  part_000.Database r = Some db →
  repository_go.database r0 = Some db →
  gorm.First db model conds w = (w', res) →
  gorm.no_rows res →
  gorm.record_at w' model = gorm.record_at w model →
  (∃ w'', part_000.First r model conds w = Go.Return (None, w'')
          ∧ w'' = w'
          ∧ gorm.record_at w'' model = gorm.record_at w model)
  ∧ (∀ c w1, gorm.no_rows (gorm.First db model [c] w1).2 →
       repository_go.First r0 model c w1 =
         Go.Return (Some gorm.ErrRecordNotFound,
                    (gorm.First db model [c] w1).1)).
Proof.
  intros Hr Hr0 Hst Hmiss Htarget. split.
  - exists w'. rewrite (First_run r db) by done. simpl.
    rewrite Hst. simpl. rewrite Hmiss.
    by rewrite bool_decide_eq_true_2.
  - intros c w1 Hmiss1. unfold repository_go.First.
    rewrite Hr0, bind_call. simpl. rewrite Hmiss1.
    by rewrite bool_decide_eq_true_2.
Qed.

(** C2 (the code at zero matches).  [FindOrFail] tests the error of the
    store's multi-row fetch and nothing else: when the fetch reports zero
    rows the way gorm's [Find] does, with a nil error, a count of zero and
    an empty slice, [FindOrFail] returns a nil error, like [Find], and not
    a not-found error. *)
Theorem FindOrFail_zero_rows_returns_nil r db models conds w w' res :
  part_000.Database r = Some db →
  gorm.Find db models conds w = (w', res) →
  gorm.Error res = None →
  gorm.RowsAffected res = 0 →
  gorm.slice_at w' models = [] →
  part_000.FindOrFail r models conds w = Go.Return (None, w')
  ∧ part_000.Find r models conds w = Go.Return (None, w')
  ∧ ∀ e w'', part_000.FindOrFail r models conds w ≠ Go.Return (Some e, w'').
Proof.
  intros Hr Hst Hok _ _.
  rewrite (FindOrFail_run r db), (Find_run r db) by done. simpl.
  rewrite Hst. simpl. rewrite Hok. split_and!; [done| |done].
  by rewrite bool_decide_eq_false_2.
Qed.

(** What [FindOrFail] returns in general: the error of the store's
    multi-row fetch, whatever it is.  With a store that reports an empty
    match set by a nil error, [FindOrFail] returns nil. *)
Remark FindOrFail_returns_store_error r db models conds w :
  part_000.Database r = Some db →
  part_000.FindOrFail r models conds w =
    Go.Return (gorm.Error (gorm.Find db models conds w).2,
               (gorm.Find db models conds w).1).
Proof. intros Hr. by rewrite (FindOrFail_run r db). Qed.

(** C3.  When the store's single-row fetch reports that no row matched,
    [FirstOrFail] returns the no-rows error; when the fetch reports any
    other error, [FirstOrFail] returns that one, so the two are told
    apart; and, the store reporting the no-rows value from fetches only,
    a declared method that returns the no-rows error is one of the
    [*OrFail] methods. *)
Theorem FirstOrFail_not_found r db model conds w w' res :
  part_000.Database r = Some db →
  gorm.miss_only_from_fetch db →
  gorm.First db model conds w = (w', res) →
  gorm.no_rows res →
  part_000.FirstOrFail r model conds w =
    Go.Return (Some gorm.ErrRecordNotFound, w')
  ∧ (∀ w1 e, gorm.Error (gorm.First db model conds w1).2 = Some e →
       e ≠ gorm.ErrRecordNotFound →
       part_000.FirstOrFail r model conds w1 =
         Go.Return (Some e, (gorm.First db model conds w1).1)
       ∧ Some e ≠ Some gorm.ErrRecordNotFound)
  ∧ (∀ c m w1 v w2,
       part_000.declared r c = Some m →
       m w1 = Go.Return (v, w2) →
       part_000.ret_err v = Some gorm.ErrRecordNotFound →
       part_000.or_fail c = true).
Proof.
  intros Hr Hcontract Hst Hmiss. split_and!.
  - rewrite (FirstOrFail_run r db) by done. simpl. rewrite Hst. simpl.
    by rewrite Hmiss.
  - intros w1 e He Hne. rewrite (FirstOrFail_run r db) by done. simpl.
    rewrite He. split; congruence.
  - intros c m w1 v w2 Hm Hrun Hv.
    destruct (part_000.store_call db c) as [f|] eqn:Hf.
    + destruct (declared_run r db c m f w1 Hr Hm Hf) as (v' & Hrun' & Herr).
      rewrite Hrun in Hrun'. simplify_eq. rewrite Hv in Herr.
      destruct (Hcontract w1) as (Hc & Hb & Hs & Hd).
      destruct c; simplify_eq/=; try done;
        try (by case_bool_decide);
        symmetry in Herr; first [by apply Hc in Herr | by apply Hb in Herr
          | by apply Hs in Herr | by apply Hd in Herr].
    + destruct c; simplify_eq/=.
      unfold mbind, Go.exec_bind, part_000.GetDB, mret, Go.exec_ret in Hrun.
      by simplify_eq/=.
Qed.

(** ** Every other store error reaches the caller *)

(** C4.  Whatever declared method is called, when the store call behind
    it reports an error, the method returns after that one store call, in
    the state the store left; an error other than the no-rows value is
    returned as it is; and if the returned error is not the store's, the
    store's was the no-rows value, the method returned nil and it is not
    an [*OrFail] method. *)
Theorem store_error_propagated r db c m f w w' res e :
  part_000.Database r = Some db →
  part_000.declared r c = Some m →
  part_000.store_call db c = Some f →
  f w = (w', res) →
  gorm.Error res = Some e →
  ∃ v, m w = Go.Return (v, w')
       ∧ (e ≠ gorm.ErrRecordNotFound → part_000.ret_err v = Some e)
       ∧ (part_000.ret_err v ≠ Some e →
            e = gorm.ErrRecordNotFound ∧ part_000.ret_err v = None
            ∧ part_000.or_fail c = false).
Proof.
  intros Hr Hm Hf Hst He.
  destruct (declared_run r db c m f w Hr Hm Hf) as (v & Hrun & Herr).
  rewrite Hst in Hrun, Herr. simpl in *. rewrite He in Herr.
  exists v. split; [done|].
  destruct (part_000.suppresses_not_found c) eqn:Hs; simpl in Herr;
    [case_bool_decide; simplify_eq|]; rewrite Herr.
  - split; [done|]. intros _. by destruct c.
  - split; [done|]. intros Hne. done.
  - done.
Qed.

(** ** Records are returned by reference *)

(** C5.  A declared method that returns a record pointer is [Create];
    the state after the call is the state the store's insert left, with
    whatever identity the store wrote into the record; a non-nil returned
    pointer is the pointer the caller passed, returned with a nil error;
    and with an error the returned pointer is nil. *)
Theorem Create_returns_same_reference r db c m w p e w' :
  part_000.Database r = Some db →
  part_000.declared r c = Some m →
  m w = Go.Return (part_000.ret_record p e, w') →
  ∃ model,
    c = part_000.call_Create model
    ∧ part_000.Create r model w = Go.Return ((p, e), w')
    ∧ w' = (gorm.Create db model w).1
    ∧ e = gorm.Error (gorm.Create db model w).2
    ∧ (p ≠ Go.nil → p = model ∧ e = None)
    ∧ (e = None → p = model)
    ∧ (e ≠ None → p = Go.nil).
Proof.
  intros Hr Hm Hrun.
  destruct c; simplify_eq/=;
    apply bind_Return_inv in Hrun as (a & w1 & Hstep & Hret);
    unfold mret, Go.exec_ret in Hret; simplify_eq.
  exists model. destruct a as [p e]. simpl in *.
  split; [done|]. split; [done|].
  rewrite (Create_run r db) in Hstep by done. simpl in Hstep.
  destruct (gorm.Error _) as [e'|] eqn:He;
    case_bool_decide; simplify_eq; by split_and!.
Qed.

(** ** The count of a batch insert *)


(** ** The handle, and the method that is not there *)

#[local] Ltac decide_name := apply (bool_decide_unpack _); by vm_compute.

Lemma declared_iff_named r c :
  is_Some (part_000.declared r c)
  ↔ part_000.method_name c ∈ part_000.Repository_methods.
Proof.
  destruct c; simpl; (split; intros H);
    try (by eexists); try (by destruct H); try decide_name.
  exfalso. revert H. decide_name.
Qed.

(** [*Repository[T]] has every method of [IRepository[T]]: declared, or
    promoted from the embedded field. *)
Lemma Repository_implements_IRepository r c :
  part_000.method_name c ∈ part_000.IRepository_methods →
  is_Some (part_000.select r c).
Proof.
  intros Hc. unfold part_000.select.
  destruct (part_000.declared r c); [by eexists|].
  unfold part_000.invoke. by rewrite bool_decide_eq_true_2.
Qed.



(** C10.  In the value built by [InitRepository] the embedded interface
    is nil; [*Repository[T]] declares [BulkCreate] and no [BatchCreate],
    which the interface names; so [BatchCreate] called through the
    returned interface value is the promoted method of the nil embedded
    interface: it panics on the nil dereference, in every state, and no
    store call is made. *)
Theorem BatchCreate_panics (database : option DB) models w :
  part_000.embedded_IRepository (part_000.Repository_literal database) = None
  ∧ ("BulkCreate" ∈ part_000.Repository_methods)
  ∧ ("BatchCreate" ∉ part_000.Repository_methods)
  ∧ ("BatchCreate" ∈ part_000.IRepository_methods)
  ∧ ("BulkCreate" ∉ part_000.IRepository_methods)
  ∧ part_000.declared (part_000.Repository_literal database)
      (part_000.call_BatchCreate models) = None
  ∧ part_000.select (part_000.Repository_literal database)
      (part_000.call_BatchCreate models)
    = part_000.invoke None (part_000.call_BatchCreate models)
  ∧ (∃ m, part_000.invoke (part_000.InitRepository database)
            (part_000.call_BatchCreate models) = Some m
          ∧ m w = Go.Panic Go.nil_dereference).
Proof.
  split_and!; try done; try decide_name.
  eexists. split; [reflexivity|done].
Qed.

(** C6 (the code at a batch).  [BatchCreate], the batch insert the
    interface names, called on N records through the value of
    [InitRepository], panics in every state and returns no count, whatever
    the store would do; the body that returns the store's count is
    declared as [BulkCreate], which the interface does not name. *)
Theorem BatchCreate_returns_no_count (db : DB) models w :
  (∃ m, part_000.invoke (part_000.InitRepository (Some db))
          (part_000.call_BatchCreate models) = Some m
        ∧ m w = Go.Panic Go.nil_dereference
        ∧ ∀ n e w', m w ≠ Go.Return (part_000.ret_count n e, w'))
  ∧ part_000.invoke (part_000.InitRepository (Some db))
      (part_000.call_BulkCreate models) = None
  ∧ part_000.BulkCreate (part_000.Repository_literal (Some db)) models w
    = Go.Return ((gorm.RowsAffected (gorm.CreateInBatch db models w).2,
                  gorm.Error (gorm.CreateInBatch db models w).2),
                 (gorm.CreateInBatch db models w).1).
Proof.
  split_and!.
  - eexists. split_and!; [reflexivity|done|done].
  - done.
  - by rewrite (BulkCreate_run _ db).
Qed.

End part_000_properties.

(** ** The reference store keeps the store contract *)

Section memstore_properties.

#[local] Abbreviation mworld := (gorm.world memstore.Model memstore.Table).

Implicit Types (w : mworld) (m : memstore.Model) (l : Go.loc).

Lemma insert_row_error l m w e :
  gorm.Error (memstore.insert_row l m w).2 = Some e →
  e = memstore.ErrDuplicatedKey.
Proof.
  unfold memstore.insert_row.
  repeat case_match; simpl; intros; by simplify_eq.
Qed.

Lemma Create_error value w e :
  gorm.Error (memstore.Create value w).2 = Some e →
  e = memstore.ErrDuplicatedKey ∨ e = memstore.ErrInvalidValue.
Proof.
  unfold memstore.Create. repeat case_match; simpl; intros He;
    try (right; by simplify_eq).
  left. by eapply insert_row_error.
Qed.

Lemma create_from_result n values w :
  match gorm.Error (memstore.create_from n values w).2 with
  | None =>
      gorm.RowsAffected (memstore.create_from n values w).2
      = n + Z.of_nat (length values)
  | Some e => e = memstore.ErrDuplicatedKey ∨ e = memstore.ErrInvalidValue
  end.
Proof.
  revert n w. induction values as [|v vs IH]; intros n w; simpl.
  - lia.
  - destruct (memstore.Create v w) as [w1 res] eqn:Hc.
    destruct (gorm.Error res) as [e|] eqn:He; simpl.
    + apply (Create_error v w). by rewrite Hc.
    + specialize (IH (n + 1) w1).
      destruct (gorm.Error _); [done|]. lia.
Qed.


Lemma Save_error value w e :
  gorm.Error (memstore.Save value w).2 = Some e →
  e = memstore.ErrDuplicatedKey ∨ e = memstore.ErrInvalidValue.
Proof.
  unfold memstore.Save. repeat case_match; simpl; intros He;
    try (right; by simplify_eq); try done.
  left. by eapply insert_row_error.
Qed.

Lemma Delete_error soft value w e :
  gorm.Error (memstore.Delete soft value w).2 = Some e →
  e = memstore.ErrInvalidValue.
Proof.
  unfold memstore.Delete. repeat case_match; simpl; intros; by simplify_eq.
Qed.

Lemma memstore_miss_only_from_fetch soft :
  gorm.miss_only_from_fetch (memstore.db soft).
Proof.
  intros w. unfold gorm.no_rows. simpl. split_and!.
  - intros v [?|?]%Create_error; by simplify_eq.
  - intros vs He. unfold memstore.CreateInBatch in He.
    pose proof (create_from_result 0 vs w) as H. rewrite He in H.
    by destruct H.
  - intros v [?|?]%Save_error; by simplify_eq.
  - intros v ?%Delete_error. by simplify_eq.
Qed.

(** A single-row fetch that matches nothing reports no rows and writes
    nothing. *)
Lemma First_miss dest conds w :
  memstore.matching conds (gorm.table w) = [] →
  memstore.First dest conds w = (w, memstore.failed gorm.ErrRecordNotFound 0).
Proof. unfold memstore.First. by intros ->. Qed.

(** A multi-row fetch that matches nothing reports no error, a count of
    zero and an empty slice. *)
Lemma Find_no_match dest conds w :
  memstore.matching conds (gorm.table w) = [] →
  gorm.Error (memstore.Find dest conds w).2 = None
  ∧ gorm.RowsAffected (memstore.Find dest conds w).2 = 0
  ∧ gorm.slice_at (memstore.Find dest conds w).1 dest = [].
Proof.
  unfold memstore.Find, gorm.slice_at. intros ->.
  destruct dest as [l|]; simpl; [|done].
  by rewrite lookup_insert_eq.
Qed.

Lemma replace_row_IDs m ms :
  memstore.ID <$> memstore.replace_row m ms = memstore.ID <$> ms.
Proof.
  unfold memstore.replace_row. rewrite <- list_fmap_compose.
  apply list_fmap_ext. intros i r _. simpl. by case_bool_decide.
Qed.

Lemma replace_row_elem m ms :
  memstore.ID m ∈ memstore.ID <$> ms → m ∈ memstore.replace_row m ms.
Proof.
  intros (r & Hid & Hr)%list_elem_of_fmap.
  apply list_elem_of_fmap. exists r. split; [|done].
  by rewrite bool_decide_eq_true_2.
Qed.

Lemma insert_row_appends l m w :
  memstore.stored m (gorm.table w) = false →
  ∃ m', memstore.insert_row l m w
        = ((memstore.insert_row l m w).1, memstore.ok 1)
    ∧ memstore.rows (gorm.table (memstore.insert_row l m w).1)
      = memstore.rows (gorm.table w) ++ [m']
    ∧ memstore.with_ID m' (memstore.ID m) = m.
Proof.
  unfold memstore.stored, memstore.insert_row. intros Hst.
  destruct (decide (memstore.ID m = 0)) as [Hz|Hz].
  - rewrite (bool_decide_eq_true_2 _ Hz). simpl.
    eexists. split_and!; [done|done|]. by destruct m.
  - rewrite (bool_decide_eq_false_2 _ Hz).
    rewrite bool_decide_eq_true_2 in Hst by done. simpl in Hst.
    rewrite Hst. simpl. eexists. split_and!; [done|done|]. by destruct m.
Qed.

(** ** Upsert and delete, on the reference store *)

(** C7.  On the reference store, [Update] of a record returns a nil
    error.  When the record's identity is stored, the row of that identity
    is replaced by the record and the rows keep their number and their
    identities: no duplicate appears.  When it is not, exactly one row,
    the record with its identity, is added at the end; and an [Update]
    that follows with a record that again matches no stored identity adds
    one more row. *)
Theorem Update_upserts soft (r : @part_000.Repository _ _ memstore.cond)
    l m w :
  part_000.Database r = Some (memstore.db soft) →
  gorm.records w !! l = Some m →
  ∃ w', part_000.Update r (Some l) w = Go.Return (None, w')
    ∧ (memstore.stored m (gorm.table w) = true →
         memstore.rows (gorm.table w')
           = memstore.replace_row m (memstore.rows (gorm.table w))
         ∧ length (memstore.rows (gorm.table w'))
           = length (memstore.rows (gorm.table w))
         ∧ memstore.ID <$> memstore.rows (gorm.table w')
           = memstore.ID <$> memstore.rows (gorm.table w)
         ∧ m ∈ memstore.rows (gorm.table w'))
    ∧ (memstore.stored m (gorm.table w) = false →
         (∃ m', memstore.rows (gorm.table w')
                = memstore.rows (gorm.table w) ++ [m']
                ∧ memstore.with_ID m' (memstore.ID m) = m)
         ∧ length (memstore.rows (gorm.table w'))
           = S (length (memstore.rows (gorm.table w)))
         ∧ ∀ l2 m2,
             gorm.records w' !! l2 = Some m2 →
             memstore.stored m2 (gorm.table w') = false →
             ∃ w'', part_000.Update r (Some l2) w' = Go.Return (None, w'')
               ∧ length (memstore.rows (gorm.table w''))
                 = S (S (length (memstore.rows (gorm.table w))))).
Proof.
  intros Hr Hm.
  assert (Hnew : ∀ l1 m1 w1,
    gorm.records w1 !! l1 = Some m1 →
    memstore.stored m1 (gorm.table w1) = false →
    ∃ w2 m', part_000.Update r (Some l1) w1 = Go.Return (None, w2)
      ∧ memstore.rows (gorm.table w2)
        = memstore.rows (gorm.table w1) ++ [m']
      ∧ memstore.with_ID m' (memstore.ID m1) = m1).
  { intros l1 m1 w1 Hm1 Hst. rewrite (Update_run r _ _ _ Hr). simpl.
    unfold memstore.Save. rewrite Hm1, Hst.
    destruct (insert_row_appends l1 m1 w1 Hst) as (m' & Hres & Hrows & Hid).
    rewrite Hres. simpl. eauto. }
  destruct (memstore.stored m (gorm.table w)) eqn:Hst.
  - rewrite (Update_run r _ _ _ Hr). simpl.
    unfold memstore.Save. rewrite Hm, Hst. simpl.
    eexists. split; [done|]. split; [|done]. intros _. simpl.
    apply andb_prop in Hst as [_ Hin%bool_decide_eq_true_1].
    split_and!.
    + done.
    + unfold memstore.replace_row. by rewrite length_fmap.
    + apply replace_row_IDs.
    + by apply replace_row_elem.
  - destruct (Hnew l m w Hm Hst) as (w' & m' & Hrun & Hrows & Hid).
    exists w'. split; [done|]. split; [done|]. intros _. split_and!.
    + eauto.
    + rewrite Hrows, length_app. simpl. lia.
    + intros l2 m2 Hm2 Hst2.
      destruct (Hnew l2 m2 w' Hm2 Hst2) as (w'' & m'' & Hrun2 & Hrows2 & _).
      exists w''. split; [done|].
      rewrite Hrows2, Hrows, !length_app. simpl. lia.
Qed.

Lemma hard_delete_leaves_no_match i conds t rows' :
  rows' = filter (λ r, negb (memstore.hit i r)) (memstore.rows t) →
  (∀ row, forallb (λ c : memstore.cond, c row) conds = true →
          memstore.ID row = i) →
  memstore.matching conds
    {| memstore.rows := rows';
       memstore.next_id := memstore.next_id t;
       memstore.now := memstore.now t |} = [].
Proof.
  intros -> Hby. unfold memstore.matching. simpl.
  destruct (filter _ (filter _ _)) as [|row rest] eqn:Hf; [done|].
  assert (Hrow : row ∈ row :: rest) by left. rewrite <- Hf in Hrow.
  apply list_elem_of_filter in Hrow as [[Hvis Hc]%andb_prop_elim Hrow].
  apply list_elem_of_filter in Hrow as [Hno _].
  apply Is_true_true in Hc. apply Hby in Hc.
  unfold memstore.hit in Hno. rewrite bool_decide_eq_true_2 in Hno by done.
  simpl in Hno. by destruct (memstore.visible row).
Qed.

(** C8.  On the reference store, [Delete] of a record returns a nil
    error and the number of visible rows that carry the record's identity,
    and leaves the caller's records as they were.  With a deletion
    timestamp in the record type every such row stays in the table,
    stamped with the store's current time, and no row is removed.  Without
    one, exactly those rows are removed, and a [First] by that identity
    afterwards finds nothing: it returns nil and changes nothing, and
    [FirstOrFail] returns the no-rows error. *)
Theorem Delete_soft_or_hard soft (r : @part_000.Repository _ _ memstore.cond)
    l m w :
  part_000.Database r = Some (memstore.db soft) →
  gorm.records w !! l = Some m →
  let n := length (filter (λ row, memstore.hit (memstore.ID m) row)
                     (memstore.rows (gorm.table w))) in
  ∃ w', part_000.Delete r (Some l) w = Go.Return ((Z.of_nat n, None), w')
    ∧ gorm.records w' = gorm.records w
    ∧ (soft = true →
         memstore.rows (gorm.table w')
           = memstore.stamp (memstore.ID m) (memstore.now (gorm.table w))
               <$> memstore.rows (gorm.table w)
         ∧ length (memstore.rows (gorm.table w'))
           = length (memstore.rows (gorm.table w))
         ∧ ∀ row, row ∈ memstore.rows (gorm.table w) →
                  memstore.hit (memstore.ID m) row = true →
                  memstore.with_DeletedAt row
                    (Some (memstore.now (gorm.table w)))
                  ∈ memstore.rows (gorm.table w'))
    ∧ (soft = false →
         memstore.rows (gorm.table w')
           = filter (λ row, negb (memstore.hit (memstore.ID m) row))
               (memstore.rows (gorm.table w))
         ∧ (∀ row, row ∈ memstore.rows (gorm.table w') →
                   memstore.hit (memstore.ID m) row = false)
         ∧ ∀ dest conds,
             (∀ row, forallb (λ c : memstore.cond, c row) conds = true →
                     memstore.ID row = memstore.ID m) →
             part_000.First r dest conds w' = Go.Return (None, w')
             ∧ part_000.FirstOrFail r dest conds w'
               = Go.Return (Some gorm.ErrRecordNotFound, w')).
Proof.
  intros Hr Hm n. rewrite (Delete_run r _ _ _ Hr). simpl.
  unfold memstore.Delete. rewrite Hm. simpl.
  eexists. split; [done|]. split; [done|]. split; intros ->; simpl.
  - split_and!; [done|by rewrite length_fmap|].
    intros row Hrow Hhit. apply list_elem_of_fmap. exists row.
    split; [|done]. unfold memstore.stamp. by rewrite Hhit.
  - split_and!; [done| |].
    + intros row [Hno _]%list_elem_of_filter.
      by destruct (memstore.hit _ row).
    + intros dest conds Hby.
      rewrite (First_run r _ _ _ _ Hr), (FirstOrFail_run r _ _ _ _ Hr).
      simpl. rewrite First_miss; [done|].
      by eapply hard_delete_leaves_no_match.
Qed.

End memstore_properties.

(** ** The theorems at sample values *)

Lemma First_not_found_witness :
  part_000.Database (sample.repo false) = Some (memstore.db false)
  ∧ repository_go.database sample.repo_go = Some (memstore.db false)
  ∧ gorm.First (memstore.db false) sample.p1 [sample.by_ID 7] sample.w0
    = (sample.w0, memstore.failed gorm.ErrRecordNotFound 0)
  ∧ gorm.no_rows (memstore.failed gorm.ErrRecordNotFound 0)
  ∧ gorm.record_at sample.w0 sample.p1 = Some sample.alice
  ∧ (∃ w'', part_000.First (sample.repo false) sample.p1 [sample.by_ID 7]
              sample.w0 = Go.Return (None, w'')
            ∧ w'' = sample.w0
            ∧ gorm.record_at w'' sample.p1
              = gorm.record_at sample.w0 sample.p1).
Proof.
  do 5 (split; [reflexivity|]).
  apply (First_not_found (sample.repo false) sample.repo_go
           (memstore.db false) sample.p1 [sample.by_ID 7] sample.w0
           sample.w0 (memstore.failed gorm.ErrRecordNotFound 0));
    reflexivity.
Defined.

Lemma FindOrFail_zero_rows_returns_nil_witness :
  part_000.Database (sample.repo false) = Some (memstore.db false)
  ∧ memstore.matching [] (gorm.table sample.w0) = []
  ∧ gorm.Error (gorm.Find (memstore.db false) sample.s1 [] sample.w0).2
    = None
  ∧ gorm.RowsAffected
      (gorm.Find (memstore.db false) sample.s1 [] sample.w0).2 = 0
  ∧ gorm.slice_at (gorm.Find (memstore.db false) sample.s1 [] sample.w0).1
      sample.s1 = []
  ∧ part_000.FindOrFail (sample.repo false) sample.s1 [] sample.w0
    = Go.Return
        (None, (gorm.Find (memstore.db false) sample.s1 [] sample.w0).1).
Proof.
  do 5 (split; [reflexivity|]).
  exact (proj1 (FindOrFail_zero_rows_returns_nil (sample.repo false)
                  (memstore.db false) sample.s1 [] sample.w0 _ _
                  eq_refl eq_refl eq_refl eq_refl eq_refl)).
Defined.

(** C1, as stated, fails for [First] of [src/repository.go]: on the empty
    table the store reports no rows, and the method returns that error
    where the claim has it return nil. *)
Lemma First_repository_go_surfaces_not_found :
  gorm.no_rows
    (gorm.First (memstore.db false) sample.p1 [sample.by_ID 7] sample.w0).2
  ∧ repository_go.First sample.repo_go sample.p1 (sample.by_ID 7) sample.w0
    = Go.Return (Some gorm.ErrRecordNotFound, sample.w0)
  ∧ ¬ (∃ w', repository_go.First sample.repo_go sample.p1 (sample.by_ID 7)
               sample.w0 = Go.Return (None, w')).
Proof.
  split_and!; [reflexivity|reflexivity|].
  intros [w' H]. vm_compute in H. discriminate H.
Qed.


Lemma FirstOrFail_not_found_witness :
  part_000.Database (sample.repo false) = Some (memstore.db false)
  ∧ gorm.miss_only_from_fetch (memstore.db false)
  ∧ gorm.First (memstore.db false) sample.p1 [] sample.w0
    = (sample.w0, memstore.failed gorm.ErrRecordNotFound 0)
  ∧ gorm.no_rows (memstore.failed gorm.ErrRecordNotFound 0)
  ∧ part_000.FirstOrFail (sample.repo false) sample.p1 [] sample.w0
    = Go.Return (Some gorm.ErrRecordNotFound, sample.w0).
Proof.
  split; [reflexivity|].
  split; [apply memstore_miss_only_from_fetch|].
  do 2 (split; [reflexivity|]).
  exact (proj1 (FirstOrFail_not_found (sample.repo false) (memstore.db false)
                  sample.p1 [] sample.w0 sample.w0
                  (memstore.failed gorm.ErrRecordNotFound 0)
                  eq_refl (memstore_miss_only_from_fetch false)
                  eq_refl eq_refl)).
Defined.

Lemma store_error_propagated_witness :
  part_000.Database (sample.repo false) = Some (memstore.db false)
  ∧ part_000.declared (sample.repo false) (part_000.call_Create Go.nil)
    = Some (x ← part_000.Create (sample.repo false) Go.nil;
            mret (part_000.ret_record x.1 x.2))
  ∧ part_000.store_call (memstore.db false) (part_000.call_Create Go.nil)
    = Some (gorm.Create (memstore.db false) Go.nil)
  ∧ gorm.Create (memstore.db false) Go.nil sample.w0
    = (sample.w0, memstore.failed memstore.ErrInvalidValue 0)
  ∧ gorm.Error (memstore.failed memstore.ErrInvalidValue 0)
    = Some memstore.ErrInvalidValue
  ∧ ∃ v : sample.ret,
         (x ← part_000.Create (sample.repo false) Go.nil;
          mret (part_000.ret_record x.1 x.2)) sample.w0
         = Go.Return (v, sample.w0)
       ∧ (memstore.ErrInvalidValue ≠ gorm.ErrRecordNotFound →
            part_000.ret_err v = Some memstore.ErrInvalidValue)
       ∧ (part_000.ret_err v ≠ Some memstore.ErrInvalidValue →
            memstore.ErrInvalidValue = gorm.ErrRecordNotFound
            ∧ part_000.ret_err v = None
            ∧ part_000.or_fail
                (part_000.call_Create (cond:=memstore.cond) Go.nil) = false).
Proof.
  do 5 (split; [reflexivity|]).
  apply (store_error_propagated (sample.repo false) (memstore.db false)
           (part_000.call_Create Go.nil) _
           (gorm.Create (memstore.db false) Go.nil) sample.w0 sample.w0
           (memstore.failed memstore.ErrInvalidValue 0));
    reflexivity.
Defined.

Lemma Create_returns_same_reference_witness :
  part_000.Database (sample.repo false) = Some (memstore.db false)
  ∧ part_000.declared (sample.repo false) (part_000.call_Create sample.p1)
    = Some (x ← part_000.Create (sample.repo false) sample.p1;
            mret (part_000.ret_record x.1 x.2))
  ∧ (x ← part_000.Create (sample.repo false) sample.p1;
     mret (part_000.ret_record x.1 x.2 : sample.ret)) sample.w0
    = Go.Return (part_000.ret_record sample.p1 None, sample.w1)
  ∧ gorm.record_at sample.w0 sample.p1 = Some sample.alice
  ∧ gorm.record_at sample.w1 sample.p1 = Some sample.alice1
  ∧ ∃ model,
      part_000.Create (sample.repo false) model sample.w0
      = Go.Return ((sample.p1, None), sample.w1)
      ∧ (sample.p1 ≠ Go.nil → sample.p1 = model).
Proof.
  do 5 (split; [reflexivity|]).
  destruct (Create_returns_same_reference (sample.repo false)
              (memstore.db false) (part_000.call_Create sample.p1) _
              sample.w0 sample.p1 None sample.w1 eq_refl eq_refl eq_refl)
    as (model & _ & Hrun & _ & _ & Hsame & _).
  exists model. split; [exact Hrun|].
  intros Hp. exact (proj1 (Hsame Hp)).
Defined.


Lemma Update_upserts_witness :
  part_000.Database (sample.repo false) = Some (memstore.db false)
  ∧ gorm.records sample.w0 !! 1%positive = Some sample.alice
  ∧ memstore.stored sample.alice (gorm.table sample.w0) = false
  ∧ gorm.records sample.w1 !! 2%positive = Some sample.alice
  ∧ memstore.stored sample.alice (gorm.table sample.w1) = false
  ∧ ∃ w' w'',
      part_000.Update (sample.repo false) sample.p1 sample.w0
      = Go.Return (None, w')
      ∧ length (memstore.rows (gorm.table w')) = 1%nat
      ∧ part_000.Update (sample.repo false) sample.p2 w'
        = Go.Return (None, w'')
      ∧ length (memstore.rows (gorm.table w'')) = 2%nat.
Proof.
  do 5 (split; [reflexivity|]).
  destruct (Update_upserts false (sample.repo false) 1%positive sample.alice
              sample.w0 eq_refl eq_refl) as (w' & Hrun & _ & Hnew).
  destruct (Hnew eq_refl) as (_ & Hone & Hagain).
  assert (Hw : Go.Return (None : option gorm.error, w')
               = Go.Return (None, sample.w1))
    by (rewrite <- Hrun; reflexivity).
  injection Hw as Hw.
  destruct (Hagain 2%positive sample.alice) as (w'' & Hrun2 & Htwo).
  - rewrite Hw. reflexivity.
  - rewrite Hw. reflexivity.
  - exists w', w''. split; [exact Hrun|]. split; [exact Hone|].
    split; [exact Hrun2|exact Htwo].
Defined.

Lemma Delete_soft_or_hard_witness :
  part_000.Database (sample.repo true) = Some (memstore.db true)
  ∧ gorm.records sample.w1 !! 1%positive = Some sample.alice1
  ∧ ∃ w', part_000.Delete (sample.repo true) sample.p1 sample.w1
          = Go.Return ((1, None), w')
        ∧ gorm.records w' = gorm.records sample.w1.
Proof.
  do 2 (split; [reflexivity|]).
  destruct (Delete_soft_or_hard true (sample.repo true) 1%positive
              sample.alice1 sample.w1 eq_refl eq_refl)
    as (w' & Hrun & Hrec & _).
  exists w'. split; [exact Hrun|exact Hrec].
Defined.


(** * Further properties of the two sources *)

Section more_properties.
Context {T S cond : Type} `{!IBaseModel T}.

#[local] Abbreviation world' := (gorm.world T S).
#[local] Abbreviation DB' := (gorm.DB T S cond).
#[local] Abbreviation Repository' := (@part_000.Repository T S cond).
#[local] Abbreviation Repository0 := (@repository_go.Repository T S cond).

Implicit Types (r : Repository') (old : Repository0) (db : DB')
  (w : world') (c : @part_000.call cond).

(** ** A method and its [*OrFail] sibling *)

(** X1.  [First] is [FirstOrFail] with the no-rows error turned into
    nil: the two panic together, leave the same state, and return the
    same error except for that one value; so [First] never returns the
    no-rows error, whatever the store does. *)
Theorem First_is_FirstOrFail_less_not_found r model conds w :
  part_000.First r model conds w =
    match part_000.FirstOrFail r model conds w with
    | Go.Return (e, w') =>
        Go.Return (if bool_decide (e = Some gorm.ErrRecordNotFound)
                   then None else e, w')
    | Go.Panic k => Go.Panic k
    end
  ∧ ∀ w', part_000.First r model conds w
          ≠ Go.Return (Some gorm.ErrRecordNotFound, w').
Proof.
  destruct (part_000.Database r) as [db|] eqn:Hr.
  - rewrite (First_run r db), (FirstOrFail_run r db) by done. simpl.
    split; [done|]. intros w' Heq. by case_bool_decide; simplify_eq.
  - unfold part_000.First, part_000.FirstOrFail, mbind, Go.exec_bind.
    by rewrite Hr.
Qed.

(** X2.  [Find] is [FindOrFail] with the no-rows error turned into nil,
    in the same sense, and never returns the no-rows error. *)
Theorem Find_is_FindOrFail_less_not_found r models conds w :
  part_000.Find r models conds w =
    match part_000.FindOrFail r models conds w with
    | Go.Return (e, w') =>
        Go.Return (if bool_decide (e = Some gorm.ErrRecordNotFound)
                   then None else e, w')
    | Go.Panic k => Go.Panic k
    end
  ∧ ∀ w', part_000.Find r models conds w
          ≠ Go.Return (Some gorm.ErrRecordNotFound, w').
Proof.
  destruct (part_000.Database r) as [db|] eqn:Hr.
  - rewrite (Find_run r db), (FindOrFail_run r db) by done. simpl.
    split; [done|]. intros w' Heq. by case_bool_decide; simplify_eq.
  - unfold part_000.Find, part_000.FindOrFail, mbind, Go.exec_bind.
    by rewrite Hr.
Qed.

(** ** What a success of the store becomes *)

(** X3.  When the store call behind a declared method reports no error,
    the method returns a nil error in the state the store left; [Create]
    returns the caller's pointer, and [BulkCreate] and [Delete] return
    the store's count. *)
Theorem store_success_returned r db c m f w :
  part_000.Database r = Some db →
  part_000.declared r c = Some m →
  part_000.store_call db c = Some f →
  gorm.Error (f w).2 = None →
  ∃ v, m w = Go.Return (v, (f w).1)
       ∧ part_000.ret_err v = None
       ∧ (∀ model, c = part_000.call_Create model →
            v = part_000.ret_record model None)
       ∧ (∀ models, c = part_000.call_BulkCreate models →
            v = part_000.ret_count (gorm.RowsAffected (f w).2) None)
       ∧ (∀ model, c = part_000.call_Delete model →
            v = part_000.ret_count (gorm.RowsAffected (f w).2) None).
Proof.
  intros Hr Hm Hf Hok.
  destruct c; simplify_eq/=; unfold mbind at 1, Go.exec_bind;
    rewrite ?(First_run r db), ?(FirstOrFail_run r db), ?(Find_run r db),
      ?(FindOrFail_run r db), ?(Create_run r db), ?(BulkCreate_run r db),
      ?(Update_run r db), ?(Delete_run r db) by done;
    simpl; rewrite ?Hok; simpl;
    (eexists; split; [reflexivity|]);
    split_and!; try done; intros; by simplify_eq.
Qed.

(** X4.  [Delete] returns the store's count with the store's error,
    also when the store fails: the count is not reset on failure. *)
Theorem Delete_keeps_count_on_failure r db model w w' res e :
  part_000.Database r = Some db →
  gorm.Delete db model w = (w', res) →
  gorm.Error res = Some e →
  part_000.Delete r model w
  = Go.Return ((gorm.RowsAffected res, Some e), w').
Proof.
  intros Hr Hst He. rewrite (Delete_run r db) by done. simpl.
  rewrite Hst. simpl. by rewrite He.
Qed.


(** ** Dispatch through the interface *)

(** X6.  A method declared on [*Repository[T]] and named by the
    interface is the one a call through the interface runs, whatever the
    embedded interface field holds: the declared method hides the
    promoted one, and reads the handle only. *)
Theorem declared_method_shadows_embedded r c m :
  part_000.declared r c = Some m →
  part_000.method_name c ∈ part_000.IRepository_methods →
  part_000.invoke (part_000.as_IRepository r) c = Some m
  ∧ ∀ i, part_000.declared
           {| part_000.embedded_IRepository := i;
              part_000.Database := part_000.Database r |} c = Some m.
Proof.
  intros Hm Hin. split.
  - unfold part_000.invoke, part_000.as_IRepository, part_000.select.
    rewrite bool_decide_eq_true_2 by done. by rewrite Hm.
  - intros i. rewrite <- Hm. by destruct c.
Qed.

(** X7.  [BatchCreate] on any [*Repository[T]] goes to the embedded
    interface field: with a value in the field the call is that value's
    [BatchCreate], with a nil field it panics; the handle is not used. *)
Theorem BatchCreate_goes_to_embedded r models :
  part_000.invoke (part_000.as_IRepository r)
    (part_000.call_BatchCreate models)
  = Some (match part_000.embedded_IRepository r with
          | Some tab => tab (part_000.call_BatchCreate models)
          | None => Go.panic Go.nil_dereference
          end).
Proof. by destruct r as [[tab|] h]. Qed.

(** X8.  Through the value of [InitRepository] a call that compiles is
    either [BatchCreate], which panics in every state, or a method
    declared on [*Repository[T]] other than [BulkCreate]: the batch
    insert cannot be reached through the interface. *)
Theorem InitRepository_dispatch (database : option DB') c m :
  part_000.invoke (part_000.InitRepository database) c = Some m →
  ((∃ models, c = part_000.call_BatchCreate models)
   ∧ ∀ w, m w = Go.Panic Go.nil_dereference)
  ∨ (part_000.declared (part_000.Repository_literal database) c = Some m
     ∧ ∀ models, c ≠ part_000.call_BulkCreate models).
Proof.
  unfold part_000.invoke, part_000.InitRepository, part_000.as_IRepository.
  case_bool_decide as Hin; [|done]. intros ?. simplify_eq.
  destruct c; try (by right);
    try (exfalso; revert Hin; apply (bool_decide_unpack _); by vm_compute).
  left. split; [by eexists|done].
Qed.

(** X9.  A sequence of calls through the value of [InitRepository] that
    contains a [BatchCreate] does not run to its end: it panics. *)
Theorem sequence_with_BatchCreate_panics (database : option DB')
    (cs : list (@part_000.call cond)) models w :
  part_000.call_BatchCreate models ∈ cs →
  ∃ k, part_000.invoke_all (part_000.InitRepository database) cs w
       = Go.Panic k.
Proof.
  revert w. induction cs as [|c cs IH]; intros w Hin.
  - by apply elem_of_nil in Hin.
  - simpl. apply elem_of_cons in Hin as [<-|Hin].
    + by eexists.
    + destruct (part_000.invoke _ c) as [m|]; [|by apply IH].
      unfold mbind at 1, Go.exec_bind.
      destruct (m w) as [[v w1]|k]; [|by eexists].
      unfold mbind at 1, Go.exec_bind.
      destruct (IH w1 Hin) as [k Hk]. rewrite Hk. by eexists.
Qed.

(** ** The two sources side by side *)

(** X10.  [First] and [Find] of [src/repository.go] are [FirstOrFail]
    and [FindOrFail] of [src/unnamed/part_000] at one condition: they
    return every store error, the no-rows error included. *)
Theorem reads_of_repository_go_are_OrFail old r model models conds w :
  repository_go.database old = part_000.Database r →
  repository_go.First old model conds w
  = part_000.FirstOrFail r model [conds] w
  ∧ repository_go.Find old models conds w
    = part_000.FindOrFail r models [conds] w.
Proof.
  intros Hdb.
  unfold repository_go.First, repository_go.Find, part_000.FirstOrFail,
    part_000.FindOrFail.
  by rewrite Hdb.
Qed.

(** X11.  [Create], [BulkCreate], [Update], [Delete] and [GetDB] are
    the same in the two sources: on one handle they return the same value
    in the same state. *)
Theorem writes_agree_across_sources old r model models w :
  repository_go.database old = part_000.Database r →
  repository_go.Create old model w = part_000.Create r model w
  ∧ repository_go.BulkCreate old models w = part_000.BulkCreate r models w
  ∧ repository_go.Update old model w = part_000.Update r model w
  ∧ repository_go.Delete old model w = part_000.Delete r model w
  ∧ repository_go.GetDB old w = part_000.GetDB r w.
Proof.
  intros Hdb.
  unfold repository_go.Create, repository_go.BulkCreate,
    repository_go.Update, repository_go.Delete, repository_go.GetDB,
    part_000.Create, part_000.BulkCreate, part_000.Update, part_000.Delete,
    part_000.GetDB.
  by rewrite Hdb.
Qed.

(** X12.  [InitRepository] of [src/repository.go] has the same gap: its
    interface names [BatchCreate], the struct declares [BulkCreate], and
    [BatchCreate] through the returned value panics in every state.
    [Find] and [BulkCreate], declared on the struct, are not methods of
    the interface. *)
Theorem BatchCreate_panics_in_repository_go (db : option DB') models
    dest conds w :
  ("BatchCreate" ∈ repository_go.IRepository_methods)
  ∧ ("BatchCreate" ∉ repository_go.Repository_methods)
  ∧ ("BulkCreate" ∈ repository_go.Repository_methods)
  ∧ is_Some (repository_go.declared (repository_go.Repository_literal db)
               (part_000.call_BulkCreate models))
  ∧ (∃ m, repository_go.invoke (repository_go.InitRepository db)
            (part_000.call_BatchCreate models) = Some m
          ∧ m w = Go.Panic Go.nil_dereference)
  ∧ is_Some (repository_go.declared (repository_go.Repository_literal db)
               (part_000.call_Find dest [conds]))
  ∧ repository_go.invoke (repository_go.InitRepository db)
      (part_000.call_Find dest [conds]) = None
  ∧ repository_go.invoke (repository_go.InitRepository db)
      (part_000.call_BulkCreate models) = None.
Proof.
  split_and!; try done;
    try (apply (bool_decide_unpack _); by vm_compute).
  by eexists.
Qed.

End more_properties.

(** ** The further properties at sample values *)

Lemma store_success_returned_witness :
  part_000.Database (sample.repo false) = Some (memstore.db false)
  ∧ part_000.declared (sample.repo false) (part_000.call_Create sample.p1)
    = Some (x ← part_000.Create (sample.repo false) sample.p1;
            mret (part_000.ret_record x.1 x.2))
  ∧ part_000.store_call (memstore.db false) (part_000.call_Create sample.p1)
    = Some (gorm.Create (memstore.db false) sample.p1)
  ∧ gorm.Error (gorm.Create (memstore.db false) sample.p1 sample.w0).2 = None
  ∧ ∃ v : sample.ret,
      (x ← part_000.Create (sample.repo false) sample.p1;
       mret (part_000.ret_record x.1 x.2)) sample.w0
      = Go.Return (v, sample.w1)
      ∧ part_000.ret_err v = None.
Proof.
  do 4 (split; [reflexivity|]).
  destruct (store_success_returned (sample.repo false) (memstore.db false)
              (part_000.call_Create sample.p1) _
              (gorm.Create (memstore.db false) sample.p1) sample.w0
              eq_refl eq_refl eq_refl eq_refl) as (v & Hrun & Herr & _).
  exists v. split; [exact Hrun|exact Herr].
Defined.

Lemma Delete_keeps_count_on_failure_witness :
  part_000.Database (sample.repo false) = Some (memstore.db false)
  ∧ gorm.Delete (memstore.db false) Go.nil sample.w0
    = (sample.w0, memstore.failed memstore.ErrInvalidValue 0)
  ∧ gorm.Error (memstore.failed memstore.ErrInvalidValue 0)
    = Some memstore.ErrInvalidValue
  ∧ part_000.Delete (sample.repo false) Go.nil sample.w0
    = Go.Return ((0, Some memstore.ErrInvalidValue), sample.w0).
Proof.
  do 3 (split; [reflexivity|]).
  exact (Delete_keeps_count_on_failure (sample.repo false)
           (memstore.db false) Go.nil sample.w0 sample.w0
           (memstore.failed memstore.ErrInvalidValue 0)
           memstore.ErrInvalidValue eq_refl eq_refl eq_refl).
Defined.


Lemma declared_method_shadows_embedded_witness :
  part_000.declared (sample.repo false) (part_000.call_Update sample.p1)
  = Some (e ← part_000.Update (sample.repo false) sample.p1;
          mret (part_000.ret_error e))
  ∧ "Update" ∈ part_000.IRepository_methods
  ∧ part_000.invoke (part_000.as_IRepository (sample.repo false))
      (part_000.call_Update sample.p1)
    = Some (e ← part_000.Update (sample.repo false) sample.p1;
            mret (part_000.ret_error e)).
Proof.
  split; [reflexivity|].
  assert (Hin : "Update" ∈ part_000.IRepository_methods)
    by (apply (bool_decide_unpack _); exact I).
  split; [exact Hin|].
  exact (proj1 (declared_method_shadows_embedded (sample.repo false)
                  (part_000.call_Update sample.p1) _ eq_refl Hin)).
Defined.

Lemma InitRepository_dispatch_witness :
  part_000.invoke (part_000.InitRepository (Some (memstore.db false)))
    part_000.call_GetDB
  = Some (h ← part_000.GetDB (sample.repo false);
          mret (part_000.ret_db h))
  ∧ ((∃ models,
        part_000.call_GetDB (cond:=memstore.cond)
        = part_000.call_BatchCreate models)
     ∧ (∀ w, (h ← part_000.GetDB (sample.repo false);
              mret (part_000.ret_db h : sample.ret)) w
             = Go.Panic Go.nil_dereference)
     ∨ part_000.declared
         (part_000.Repository_literal (Some (memstore.db false)))
         part_000.call_GetDB
       = Some (h ← part_000.GetDB (sample.repo false);
               mret (part_000.ret_db h))
       ∧ ∀ models,
           part_000.call_GetDB (cond:=memstore.cond)
           ≠ part_000.call_BulkCreate models).
Proof.
  split; [reflexivity|].
  exact (InitRepository_dispatch (Some (memstore.db false))
           part_000.call_GetDB _ eq_refl).
Defined.

Lemma sequence_with_BatchCreate_panics_witness :
  part_000.call_BatchCreate [sample.p2]
  ∈ [part_000.call_Create (cond:=memstore.cond) sample.p1;
     part_000.call_BatchCreate [sample.p2]; part_000.call_GetDB]
  ∧ ∃ k, part_000.invoke_all
           (part_000.InitRepository (Some (memstore.db false)))
           [part_000.call_Create sample.p1;
            part_000.call_BatchCreate [sample.p2]; part_000.call_GetDB]
           sample.w0
         = Go.Panic k.
Proof.
  assert (Hin : part_000.call_BatchCreate [sample.p2]
                ∈ [part_000.call_Create (cond:=memstore.cond) sample.p1;
                   part_000.call_BatchCreate [sample.p2];
                   part_000.call_GetDB])
    by (right; left).
  split; [exact Hin|].
  exact (sequence_with_BatchCreate_panics (Some (memstore.db false))
           _ [sample.p2] sample.w0 Hin).
Defined.

Lemma reads_of_repository_go_are_OrFail_witness :
  repository_go.database sample.repo_go
  = part_000.Database (sample.repo false)
  ∧ repository_go.First sample.repo_go sample.p1 (sample.by_ID 7) sample.w0
    = part_000.FirstOrFail (sample.repo false) sample.p1 [sample.by_ID 7]
        sample.w0
  ∧ repository_go.Find sample.repo_go sample.s1 (sample.by_ID 7) sample.w0
    = part_000.FindOrFail (sample.repo false) sample.s1 [sample.by_ID 7]
        sample.w0.
Proof.
  split; [reflexivity|].
  exact (reads_of_repository_go_are_OrFail sample.repo_go
           (sample.repo false) sample.p1 sample.s1 (sample.by_ID 7)
           sample.w0 eq_refl).
Defined.

Lemma writes_agree_across_sources_witness :
  repository_go.database sample.repo_go
  = part_000.Database (sample.repo false)
  ∧ repository_go.Create sample.repo_go sample.p1 sample.w0
    = part_000.Create (sample.repo false) sample.p1 sample.w0
  ∧ repository_go.BulkCreate sample.repo_go [sample.p1; sample.p2] sample.w0
    = part_000.BulkCreate (sample.repo false) [sample.p1; sample.p2]
        sample.w0
  ∧ repository_go.Update sample.repo_go sample.p1 sample.w0
    = part_000.Update (sample.repo false) sample.p1 sample.w0
  ∧ repository_go.Delete sample.repo_go sample.p1 sample.w0
    = part_000.Delete (sample.repo false) sample.p1 sample.w0
  ∧ repository_go.GetDB sample.repo_go sample.w0
    = part_000.GetDB (sample.repo false) sample.w0.
Proof.
  split; [reflexivity|].
  exact (writes_agree_across_sources sample.repo_go (sample.repo false)
           sample.p1 [sample.p1; sample.p2] sample.w0 eq_refl).
Defined.

(** * The receiver across calls *)

Section receiver_properties.
Context {T S cond : Type} `{!IBaseModel T}.

#[local] Abbreviation rstate := (@receiver.state T S cond).
#[local] Abbreviation rcall := (@part_000.call cond).
#[local] Abbreviation rDB := (gorm.DB T S cond).

Implicit Types (s : rstate) (c : rcall).

#[local] Ltac run_body :=
  unfold receiver.method, receiver.First, receiver.FirstOrFail,
    receiver.Find, receiver.FindOrFail, receiver.Create,
    receiver.BulkCreate, receiver.Update, receiver.Delete, receiver.GetDB,
    receiver.r_Database, receiver.r_IRepository, receiver.db_call,
    receiver.iface_call, mbind, Go.stm_bind, mret, Go.stm_ret.

(** No method body changes the struct its receiver points to, whether
    it returns or panics. *)
Lemma method_keeps_receiver c s :
  receiver.this (receiver.method c s).2 = receiver.this s.
Proof.
  destruct c; run_body; simpl; repeat case_match; simplify_eq/=; done.
Qed.

(** With a nil embedded interface, a handle comes back from [GetDB]
    only, and it is the field. *)
Lemma method_returns_field c s h :
  part_000.embedded_IRepository (receiver.this s) = None →
  (receiver.method c s).1 = Go.Done (part_000.ret_db h) →
  h = part_000.Database (receiver.this s).
Proof.
  intros Hnil.
  destruct c; run_body; simpl; rewrite ?Hnil; intros H;
    repeat case_match; by simplify_eq/=.
Qed.

(** The methods with the receiver in the state are the methods of
    [part_000] run on the struct the receiver points to. *)
Lemma method_agrees (r : @part_000.Repository T S cond) c w :
  ∃ m, part_000.select r c = Some m
       ∧ receiver.method c (receiver.State r w)
         = match m w with
           | Go.Return (v, w') => (Go.Done v, receiver.State r w')
           | Go.Panic k => (Go.Panicked k, receiver.State r w)
           end.
Proof.
  destruct r as [i h].
  destruct c; (eexists; split; [reflexivity|]);
    run_body;
    unfold part_000.First, part_000.FirstOrFail, part_000.Find,
      part_000.FindOrFail, part_000.Create, part_000.BulkCreate,
      part_000.Update, part_000.Delete, part_000.GetDB, gorm.call,
      mbind, Go.exec_bind, mret, Go.exec_ret, Go.panic;
    simpl; repeat case_match; simplify_eq/=; congruence.
Qed.

(** Whatever struct the receiver points to, it is that struct after
    every call of a sequence. *)
Lemma run_keeps_receiver (r : @part_000.Repository T S cond)
    (cs : list rcall) s :
  receiver.this s = r →
  Forall (λ x, receiver.this x.2 = r) (receiver.run cs s).
Proof.
  revert s. induction cs as [|c cs IH]; intros s Hs; simpl; [done|].
  pose proof (method_keeps_receiver c s) as Hkeep. rewrite Hs in Hkeep.
  constructor; [done|].
  destruct (receiver.method c s).1; [by apply IH|done].
Qed.

Lemma run_returns_field (r : @part_000.Repository T S cond)
    (cs : list rcall) s :
  part_000.embedded_IRepository r = None →
  receiver.this s = r →
  Forall (λ x, receiver.this x.2 = r
               ∧ ∀ h, x.1 = Go.Done (part_000.ret_db h) →
                      h = part_000.Database r)
    (receiver.run cs s).
Proof.
  intros Hnil. revert s.
  induction cs as [|c cs IH]; intros s Hs; simpl; [done|].
  pose proof (method_keeps_receiver c s) as Hkeep. rewrite Hs in Hkeep.
  constructor.
  - split; [done|]. intros h Hh. rewrite <- Hs.
    apply (method_returns_field c); [by rewrite Hs|done].
  - destruct (receiver.method c s).1; [by apply IH|done].
Qed.

(** C9.  Take the struct built by [InitRepository] for a handle, any
    state, and any sequence of calls on that repository, the nine declared
    methods and [BatchCreate] alike, run until it ends or a call panics.
    After every call of the sequence, the panicking one included, the
    struct is the one [InitRepository] built, so its handle field is the
    handle given to [InitRepository]; every handle a call returned is that
    handle; and [GetDB] in the state then returns that handle and changes
    nothing. *)
Theorem handle_never_changes (database : option rDB) (cs : list rcall)
    (w : gorm.world T S) :
  Forall (λ x,
            receiver.this x.2 = part_000.Repository_literal database
            ∧ part_000.Database (receiver.this x.2) = database
            ∧ (∀ h, x.1 = Go.Done (part_000.ret_db h) → h = database)
            ∧ receiver.GetDB x.2 = (Go.Done database, x.2))
    (receiver.run cs
       (receiver.State (part_000.Repository_literal database) w)).
Proof.
  eapply Forall_impl;
    [apply (run_returns_field (part_000.Repository_literal database));
     done|].
  intros [v s] [Hthis Hret]. simpl in *. split_and!; [done| |done|].
  - by rewrite Hthis.
  - unfold receiver.GetDB, receiver.r_Database, mbind, Go.stm_bind, mret,
      Go.stm_ret. by rewrite Hthis.
Qed.

End receiver_properties.

Lemma handle_never_changes_witness :
  length
    (receiver.run
       [part_000.call_Create sample.p1; part_000.call_GetDB;
        part_000.call_BulkCreate [sample.p2];
        part_000.call_BatchCreate [sample.p1]; part_000.call_GetDB]
       (receiver.State
          (part_000.Repository_literal (Some (memstore.db true)))
          sample.w0)) = 4%nat
  ∧ Forall (λ x,
              receiver.this x.2
              = part_000.Repository_literal (Some (memstore.db true))
              ∧ part_000.Database (receiver.this x.2)
                = Some (memstore.db true)
              ∧ (∀ h, x.1 = Go.Done (part_000.ret_db h) →
                      h = Some (memstore.db true))
              ∧ receiver.GetDB x.2 = (Go.Done (Some (memstore.db true)), x.2))
      (receiver.run
         [part_000.call_Create sample.p1; part_000.call_GetDB;
          part_000.call_BulkCreate [sample.p2];
          part_000.call_BatchCreate [sample.p1]; part_000.call_GetDB]
         (receiver.State
            (part_000.Repository_literal (Some (memstore.db true)))
            sample.w0)).
Proof.
  split; [reflexivity|].
  exact (handle_never_changes (Some (memstore.db true)) _ sample.w0).
Defined.
